(** * Social Media Sentiment Dashboard: a shallow embedding of
      [importstreamlite.py] and the properties of its fetch / score /
      aggregate / refresh cycle.

    Python floats are IEEE binary64 values, modelled by Rocq's primitive
    floats; Python ints are [Z] and lengths are [nat]; the rows appended to
    [tweet_data] are records; a DataFrame built from them is the list of its
    rows.  The script talks to Streamlit, tweepy, VADER and the clock: those
    calls are threaded through a state-and-exception monad over a [World]
    that holds the clock, the [st.cache_data] store and the trace of the
    external calls made so far. *)

From Stdlib Require Import Floats ZArith String List Bool Lia.
Import ListNotations.

Set Warnings "-inexact-float".

Open Scope string_scope.
Open Scope Z_scope.

(** ** Python values *)

(** An exception instance that derives from [Exception]: its class name
    and the text that [f"{e}"] prints. *)
Record Exception := mkException { exc_class : string; exc_msg : string }.

(** What a [raise] can carry through the script: an [Exception] instance, or
    Streamlit's [RerunException], the script-control signal raised by
    [st.experimental_rerun()], which derives from [BaseException] only and
    so passes through [except Exception]. *)
Inductive Raised :=
| PyException (e : Exception)
| RerunException.

(** The number an [st.number_input] hands back: an int when its [value=]
    is an int (the radius), a float otherwise. *)
Inductive pynum :=
| PyInt (z : Z)
| PyFloat (f : float).

(** The dict built on line 106. *)
Record Location := mkLocation {
  latitude : pynum;
  longitude : pynum;
  radius : pynum
}.

(** The client [tweepy.API(auth)] returned by [authenticate_twitter]; it is
    determined by the four credentials its handler was built from. *)
Record API := mkAPI {
  consumer_key : string;
  consumer_secret : string;
  api_access_token : string;
  api_access_secret : string
}.

(** The attributes of a tweepy status that [fetch_tweets] reads. *)
Module tweepy.
Record User := mkUser { screen_name : string; location : string }.
Record Status := mkStatus {
  full_text : string;
  user : User;
  created_at : Z;
  retweet_count : Z;
  favorite_count : Z
}.
End tweepy.

(** One dict appended to [tweet_data] (lines 70-79). *)
Record Row := mkRow {
  text : string;
  user : string;
  location : string;
  created_at : Z;
  retweets : Z;
  favorites : Z;
  sentiment : float;
  sentiment_label : string
}.

(** [pd.DataFrame(tweet_data)]: the rows in insertion order;
    [pd.DataFrame()] is the frame with no rows. *)
Definition DataFrame := list Row.

(** [df.empty] *)
Definition empty (df : DataFrame) : bool :=
  match df with [] => true | _ :: _ => false end.

(** The dict returned by [generate_summary] (lines 90-96). *)
Record Summary := mkSummary {
  total_tweets : nat;
  positive : nat;
  neutral : nat;
  negative : nat;
  avg_sentiment : float
}.

(** Truth value of a Python [str]: non-empty. *)
Definition truthy (s : string) : bool :=
  match s with EmptyString => false | String _ _ => true end.

(** ** Float comparisons *)

Definition fle (x y : float) : Prop := PrimFloat.leb x y = true.

(** ** Sentiment label (line 78) *)

Definition label_of (compound : float) : string :=
  if PrimFloat.leb 0.05%float compound then "positive"
  else if PrimFloat.leb compound (-0.05)%float then "negative"
  else "neutral".

(** ** External calls and the world they act on *)

(** The calls the script makes to its collaborators, as they appear in the
    trace.  Charts and tables are recorded by the number of rows handed
    over; rendering is not modelled. *)
Inductive Event :=
| tweepy_OAuthHandler (api_key api_secret access_token access_secret : string)
| api_search_tweets (api : API) (q : string) (geocode : option string) (count : Z)
| st_error (msg : string)
| st_warning (msg : string)
| st_info (msg : string)
| st_subheader (msg : string)
| st_caption (msg : string)
| st_metric (label : string) (value : nat) (delta : option string)
| st_plotly_chart (title : string) (rows : nat)
| st_dataframe (rows : nat)
| st_write (msg : string)
| st_download_button (rows : nat)
| st_cache_data_clear
| time_sleep (secs : Z)
| st_experimental_rerun.

(** The arguments of a call of [fetch_tweets] (line 59): the client, the
    query, the count and the location. *)
Definition Args : Type := API * string * Z * option Location.

(** An argument as [st.cache_data] sees it when it builds the key of a
    call.  Streamlit has hashing rules for [None], strings, numbers and
    dicts of those; it has none for an instance of an arbitrary class, such
    as the tweepy client. *)
Inductive Arg :=
| arg_none
| arg_str (s : string)
| arg_int (z : Z)
| arg_location (loc : Location)
| arg_instance (class_name : string).

(** The key of a stored result: the hashed arguments of the call. *)
Definition CacheKey : Type := list Arg.

(** A stored result: when it was stored, the returned frame, and the
    Streamlit elements the call displayed (replayed on a hit). *)
Record Entry := mkEntry {
  stored_at : Z;
  value : DataFrame;
  messages : list Event
}.

Record World := mkWorld {
  now : Z;                       (* the clock, in seconds *)
  cache : list (CacheKey * Entry); (* the st.cache_data store of fetch_tweets *)
  trace : list (Z * Event)       (* external calls so far, with their time *)
}.

Inductive Result (A : Type) :=
| Normal (a : A)
| Raise (r : Raised).
Arguments Normal {A} a.
Arguments Raise {A} r.

(** Statements of the script: they read and change the world and either
    complete or raise. *)
Definition M (A : Type) : Type := World -> Result A * World.

Definition ret {A} (a : A) : M A := fun w => (Normal a, w).

Definition bind {A B} (m : M A) (k : A -> M B) : M B :=
  fun w =>
    match m w with
    | (Normal a, w') => k a w'
    | (Raise r, w') => (Raise r, w')
    end.

Notation "x <- m ;; k" := (bind m (fun x => k))
  (at level 61, m at next level, right associativity).
Notation "m ;; k" := (bind m (fun _ => k))
  (at level 61, right associativity).

Definition raise {A} (e : Exception) : M A :=
  fun w => (Raise (PyException e), w).

(** A value computed by a library call that may raise instead. *)
Definition lift {A} (r : Exception + A) : M A :=
  match r with inl e => raise e | inr a => ret a end.

(** [try: body  except Exception as e: handler e] *)
Definition try_except {A} (body : M A) (handler : Exception -> M A) : M A :=
  fun w =>
    match body w with
    | (Raise (PyException e), w') => handler e w'
    | other => other
    end.

(** [while True: body].  [more] bounds the number of further iterations
    the model follows; a [Normal] result means the loop is still running
    when the bound is reached. *)
Fixpoint while_true (more : nat) (body : M unit) : M unit :=
  fun w =>
    match body w with
    | (Normal _, w') =>
        match more with
        | O => (Normal tt, w')
        | S more' => while_true more' body w'
        end
    | (Raise r, w') => (Raise r, w')
    end.

Definition emit (e : Event) : M unit :=
  fun w => (Normal tt, mkWorld (now w) (cache w) (trace w ++ [(now w, e)])).

Definition get_now : M Z := fun w => (Normal (now w), w).

(** [time.sleep(secs)]: raises [ValueError] on a negative length, and
    otherwise blocks the script thread until the clock has advanced by
    [secs]. *)
Definition sleep (secs : Z) : M unit :=
  fun w =>
    if secs <? 0
    then (Raise (PyException
                   (mkException "ValueError" "sleep length must be non-negative")),
          mkWorld (now w) (cache w) (trace w ++ [(now w, time_sleep secs)]))
    else (Normal tt,
          mkWorld (now w + secs) (cache w)
                  (trace w ++ [(now w, time_sleep secs)])).

(** [st.experimental_rerun()]: halts the script run by raising. *)
Definition experimental_rerun : M unit :=
  fun w => (Raise RerunException,
            mkWorld (now w) (cache w) (trace w ++ [(now w, st_experimental_rerun)])).

(** ** The [st.cache_data] store *)

Definition pynum_eqb (a b : pynum) : bool :=
  match a, b with
  | PyInt x, PyInt y => x =? y
  | PyFloat x, PyFloat y => PrimFloat.Leibniz.eqb x y
  | _, _ => false
  end.

Definition Location_eqb (a b : Location) : bool :=
  pynum_eqb (latitude a) (latitude b)
  && pynum_eqb (longitude a) (longitude b)
  && pynum_eqb (radius a) (radius b).

Definition Arg_eqb (a b : Arg) : bool :=
  match a, b with
  | arg_none, arg_none => true
  | arg_str x, arg_str y => (x =? y)%string
  | arg_int x, arg_int y => x =? y
  | arg_location x, arg_location y => Location_eqb x y
  | _, _ => false
  end.

Fixpoint CacheKey_eqb (a b : CacheKey) : bool :=
  match a, b with
  | [], [] => true
  | x :: a', y :: b' => Arg_eqb x y && CacheKey_eqb a' b'
  | _, _ => false
  end.

Fixpoint cache_lookup (k : CacheKey) (c : list (CacheKey * Entry))
  : option Entry :=
  match c with
  | [] => None
  | (k', e) :: c' => if CacheKey_eqb k k' then Some e else cache_lookup k c'
  end.

Fixpoint cache_store (k : CacheKey) (e : Entry) (c : list (CacheKey * Entry))
  : list (CacheKey * Entry) :=
  match c with
  | [] => [(k, e)]
  | (k', e') :: c' =>
      if CacheKey_eqb k k' then (k, e) :: c' else (k', e') :: cache_store k e c'
  end.

(** The first parameter of a call that Streamlit cannot hash, with the
    name of its class. *)
Fixpoint unhashable (params : list (string * Arg)) : option (string * string) :=
  match params with
  | [] => None
  | (name, arg_instance class_name) :: _ => Some (name, class_name)
  | _ :: rest => unhashable rest
  end.

(** The exception [st.cache_data] raises for such a parameter. *)
Definition UnhashableParamError (func_name name class_name : string) : Exception :=
  mkException "UnhashableParamError"
    ("Cannot hash argument '" ++ name ++ "' (of type `" ++ class_name
     ++ "`) in '" ++ func_name ++ "'.").

(** The Streamlit elements among the calls of a trace segment. *)
Definition is_st_element (e : Event) : bool :=
  match e with
  | st_error _ | st_warning _ | st_info _ | st_subheader _ | st_caption _
  | st_metric _ _ _ | st_plotly_chart _ _ | st_dataframe _ | st_write _
  | st_download_button _ => true
  | _ => false
  end.

Definition st_elements (seg : list (Z * Event)) : list Event :=
  filter is_st_element (map snd seg).

Fixpoint replay (msgs : list Event) : M unit :=
  match msgs with
  | [] => ret tt
  | e :: rest => emit e ;; replay rest
  end.

(** [@st.cache_data(ttl=...)] around a function, following Streamlit's
    documentation.  A call first builds its key by hashing, in order, every
    parameter whose name does not start with an underscore, and raises
    [UnhashableParamError] at the first one it cannot hash, before the
    function runs.  With a key, a call that matches a stored entry younger
    than [ttl] seconds returns the stored value (and replays the elements
    the original call displayed) without running the function; any other
    call runs the function and, when it returns, stores the result under the
    key with the current time.  A call that raises stores nothing.
    [params] are the hashed parameters of the call with their names, [func]
    is the function applied to the arguments. *)
Definition st_cache_data (ttl : Z) (func_name : string)
  (params : list (string * Arg)) (func : M DataFrame) : M DataFrame :=
  fun w =>
    match unhashable params with
    | Some (name, class_name) =>
        (Raise (PyException (UnhashableParamError func_name name class_name)), w)
    | None =>
        let k := map snd params in
        let miss :=
          match func w with
          | (Normal v, w') =>
              let shown := st_elements (skipn (length (trace w)) (trace w')) in
              (Normal v,
               mkWorld (now w')
                       (cache_store k (mkEntry (now w') v shown) (cache w'))
                       (trace w'))
          | (Raise r, w') => (Raise r, w')
          end in
        match cache_lookup k (cache w) with
        | Some ent =>
            if now w <? stored_at ent + ttl
            then (replay (messages ent) ;; ret (value ent)) w
            else miss
        | None => miss
        end
    end.

(** [st.cache_data.clear()] *)
Definition cache_data_clear : M unit :=
  fun w => (Normal tt,
            mkWorld (now w) [] (trace w ++ [(now w, st_cache_data_clear)])).

(** ** The script *)

(** The collaborators the script calls but does not define. *)
Record Collaborators := mkCollaborators {
  (** [analyzer.polarity_scores(text)['compound']] *)
  polarity_compound : string -> Exception + float;
  (** [Series.mean()] of pandas *)
  series_mean : list float -> float;
  (** Building the OAuth handler and the client from the credentials:
      [None] when it succeeds, the exception when it raises. *)
  tweepy_auth : string -> string -> string -> string -> option Exception;
  (** What iterating the search cursor yields at a given time for a client,
      a query and a geocode: each step is a status, or an exception raised
      while the next page is requested. *)
  search_tweets :
    Z -> API -> string -> option string -> list (Exception + tweepy.Status);
  (** [f"{x}"] for a number, [strftime], and [f"{x:.1f}"] *)
  str_num : pynum -> string;
  strftime : string -> Z -> string;
  format_1f : float -> string
}.

(** The values of the sidebar widgets during one run of the script
    (lines 15-42). *)
Record Config := mkConfig {
  api_key : string;
  api_secret : string;
  access_token : string;
  access_secret : string;
  search_query : string;
  tweet_count : Z;
  refresh_rate : Z;
  use_location : bool;
  latitude_input : pynum;
  longitude_input : pynum;
  radius_input : pynum;
  clear_cache_clicked : bool
}.

Section Script.

Variable env : Collaborators.

(** *** authenticate_twitter (lines 48-55) *)

Definition authenticate_twitter
  (api_key api_secret access_token access_secret : string) : M (option API) :=
  try_except
    (emit (tweepy_OAuthHandler api_key api_secret access_token access_secret) ;;
     match tweepy_auth env api_key api_secret access_token access_secret with
     | Some e => raise e
     | None => ret (Some (mkAPI api_key api_secret access_token access_secret))
     end)
    (fun e =>
       emit (st_error ("Authentication failed: " ++ exc_msg e)) ;;
       ret None).

(** *** fetch_tweets (lines 58-83) *)

(** [Cursor(...).items(count)]: the iteration stops as soon as [count]
    items have been yielded, so it yields nothing when [count] is zero or
    negative. *)
Definition items {A} (stream : list A) (count : Z) : list A :=
  firstn (Z.to_nat count) stream.

Definition Cursor_items (api : API) (q : string) (geocode : option string)
  (count : Z) : M (list (Exception + tweepy.Status)) :=
  t <- get_now ;;
  emit (api_search_tweets api q geocode count) ;;
  ret (items (search_tweets env t api q geocode) count).

(** The [for tweet in tweets] loop (lines 68-79). *)
Fixpoint for_tweet_in (tweets : list (Exception + tweepy.Status))
  (tweet_data : list Row) : M (list Row) :=
  match tweets with
  | [] => ret tweet_data
  | next :: rest =>
      tweet <- lift next ;;
      compound <- lift (polarity_compound env (tweepy.full_text tweet)) ;;
      for_tweet_in rest
        (tweet_data ++
         [ {| text := tweepy.full_text tweet;
              user := tweepy.screen_name (tweepy.user tweet);
              location := tweepy.location (tweepy.user tweet);
              created_at := tweepy.created_at tweet;
              retweets := tweepy.retweet_count tweet;
              favorites := tweepy.favorite_count tweet;
              sentiment := compound;
              sentiment_label := label_of compound |} ])
  end.

Definition geocode_of (location : option Location) : option string :=
  match location with
  | Some loc =>
      Some (str_num env (latitude loc) ++ "," ++ str_num env (longitude loc) ++ ","
            ++ str_num env (radius loc) ++ "km")
  | None => None
  end.

(** The [try] block of [fetch_tweets] (lines 61-80). *)
Definition fetch_tweets_try (k : Args) : M DataFrame :=
  let '(api, query, count, location) := k in
  tweets <- Cursor_items api query (geocode_of location) count ;;
  tweet_data <- for_tweet_in tweets [] ;;
  ret tweet_data.

(** The function under the decorator: the [try] block and its
    [except Exception] handler (lines 81-83). *)
Definition fetch_tweets_func (k : Args) : M DataFrame :=
  try_except
    (fetch_tweets_try k)
    (fun e =>
       emit (st_error ("Error fetching tweets: " ++ exc_msg e)) ;;
       ret []).

(** [fetch_tweets] as the script calls it, under
    [@st.cache_data(ttl=300)] (line 58).  All four parameters are hashed,
    [api] first; at the call of line 118 it is the [tweepy.API] instance
    that [authenticate_twitter] returned. *)
Definition fetch_tweets (api : API) (query : string) (count : Z)
  (location : option Location) : M DataFrame :=
  st_cache_data 300 "fetch_tweets"
    [ ("api", arg_instance "tweepy.api.API");
      ("query", arg_str query);
      ("count", arg_int count);
      ("location", match location with
                   | Some loc => arg_location loc
                   | None => arg_none
                   end) ]
    (fetch_tweets_func (api, query, count, location)).

(** *** generate_summary (lines 86-97) *)

(** [len(df[df['sentiment_label'] == label])] *)
Definition count_label (label : string) (df : DataFrame) : nat :=
  length (filter (fun r => (sentiment_label r =? label)%string) df).

Definition generate_summary (df : DataFrame) : option Summary :=
  if empty df then None
  else Some {| total_tweets := length df;
               positive := count_label "positive" df;
               neutral := count_label "neutral" df;
               negative := count_label "negative" df;
               avg_sentiment := series_mean env (map sentiment df) |}.

(** *** The main dashboard (lines 100-169) *)

(** [summary[key]]: subscripting [None] raises [TypeError]. *)
Definition getitem {A} (summary : option Summary) (key : Summary -> A) : M A :=
  match summary with
  | Some s => ret (key s)
  | None => raise (mkException "TypeError" "'NoneType' object is not subscriptable")
  end.

Definition float_of_len (n : nat) : float :=
  PrimFloat.of_uint63 (Uint63.of_Z (Z.of_nat n)).

(** [a / b] on two lengths: true division, raising on a zero divisor. *)
Definition truediv (a b : nat) : Exception + float :=
  if (b =? 0)%nat then inl (mkException "ZeroDivisionError" "division by zero")
  else inr (PrimFloat.div (float_of_len a) (float_of_len b)).

(** [f"{summary[key]/summary['total_tweets']*100:.1f}%"] *)
Definition percentage (summary : option Summary) (key : Summary -> nat)
  : M string :=
  part <- getitem summary key ;;
  total <- getitem summary total_tweets ;;
  ratio <- lift (truediv part total) ;;
  ret (format_1f env (PrimFloat.mul ratio 100%float) ++ "%").

(** Lines 120-148: the metrics, charts and table, or the warning.  The
    [time] column added for the scatter plot and the sort of the table are
    part of the rendering and are not modelled. *)
Definition publish (tweets_df : DataFrame) : M unit :=
  if negb (empty tweets_df) then
    let summary := generate_summary tweets_df in
    total <- getitem summary total_tweets ;;
    emit (st_metric "Total Tweets" total None) ;;
    pos <- getitem summary positive ;;
    pos_pct <- percentage summary positive ;;
    emit (st_metric "Positive Sentiment" pos (Some pos_pct)) ;;
    neu <- getitem summary neutral ;;
    neu_pct <- percentage summary neutral ;;
    emit (st_metric "Neutral Sentiment" neu (Some neu_pct)) ;;
    neg <- getitem summary negative ;;
    neg_pct <- percentage summary negative ;;
    emit (st_metric "Negative Sentiment" neg (Some neg_pct)) ;;
    emit (st_subheader "Sentiment Distribution") ;;
    emit (st_plotly_chart "Sentiment Breakdown" (length tweets_df)) ;;
    emit (st_subheader "Sentiment Over Time") ;;
    emit (st_plotly_chart "Sentiment by Time" (length tweets_df)) ;;
    emit (st_subheader "Recent Tweets") ;;
    emit (st_dataframe (length tweets_df))
  else
    emit (st_warning "No tweets found matching your criteria.").

(** One pass through the body of [while True] (lines 112-165). *)
Definition loop_body (cfg : Config) (api : API) (location : option Location)
  : M unit :=
  emit (st_subheader ("Real-time Analysis for: '" ++ search_query cfg ++ "'")) ;;
  match location with
  | Some loc =>
      emit (st_caption ("Location: " ++ str_num env (latitude loc) ++ ", "
                        ++ str_num env (longitude loc) ++ " (Radius: "
                        ++ str_num env (radius loc) ++ "km)"))
  | None => ret tt
  end ;;
  tweets_df <- fetch_tweets api (search_query cfg) (tweet_count cfg) location ;;
  publish tweets_df ;;
  emit (st_subheader "System Status") ;;
  t <- get_now ;;
  emit (st_write ("Last updated: " ++ strftime env "%Y-%m-%d %H:%M:%S" t)) ;;
  (if negb (empty tweets_df)
   then emit (st_download_button (length tweets_df))
   else ret tt) ;;
  emit (st_write ("Refreshing in " ++ str_num env (PyInt (refresh_rate cfg))
                  ++ " seconds...")) ;;
  sleep (refresh_rate cfg) ;;
  experimental_rerun.

(** Lines 100-169. *)
Definition main (more : nat) (cfg : Config) : M unit :=
  if truthy (api_key cfg) && truthy (api_secret cfg)
     && truthy (access_token cfg) && truthy (access_secret cfg)
  then
    api <- authenticate_twitter (api_key cfg) (api_secret cfg)
                                (access_token cfg) (access_secret cfg) ;;
    match api with
    | Some api =>
        let location :=
          if use_location cfg
          then Some {| latitude := latitude_input cfg;
                       longitude := longitude_input cfg;
                       radius := radius_input cfg |}
          else None in
        while_true more (loop_body cfg api location)
    | None =>
        emit (st_warning "Please enter valid Twitter API credentials to proceed.")
    end
  else
    emit (st_info "Please enter your Twitter API credentials in the sidebar to begin.").

(** One run of the whole script: the sidebar's Clear Cache button
    (lines 41-42), then the main dashboard. *)
Definition script (more : nat) (cfg : Config) : M unit :=
  (if clear_cache_clicked cfg then cache_data_clear else ret tt) ;;
  main more cfg.

(** Streamlit runs the script again from the top each time a run ends in
    [RerunException]; a run that ends otherwise leaves the page as it is.
    [session runs] follows at most [runs] runs with the widgets unchanged. *)
Fixpoint session (runs more : nat) (cfg : Config) (w : World) : World :=
  match runs with
  | O => w
  | S runs' =>
      match script more cfg w with
      | (Raise RerunException, w') => session runs' more cfg w'
      | (_, w') => w'
      end
  end.

End Script.

(** ** Reading traces and the cache *)

(** The external calls made between two worlds of one execution. *)
Definition segment (w w' : World) : list (Z * Event) :=
  skipn (length (trace w)) (trace w').

Definition is_search (e : Event) : bool :=
  match e with api_search_tweets _ _ _ _ => true | _ => false end.

Definition is_auth (e : Event) : bool :=
  match e with tweepy_OAuthHandler _ _ _ _ => true | _ => false end.

Definition is_rerun (e : Event) : bool :=
  match e with st_experimental_rerun => true | _ => false end.

Definition is_metric (e : Event) : bool :=
  match e with st_metric _ _ _ => true | _ => false end.

Definition count_events (p : Event -> bool) (tr : list (Z * Event)) : nat :=
  length (filter (fun te => p (snd te)) tr).

(** The number of times the search API was queried in a trace. *)
Definition searches (tr : list (Z * Event)) : nat := count_events is_search tr.

(** The number of completed cycles: each ends with the rerun request. *)
Definition cycles (tr : list (Z * Event)) : nat := count_events is_rerun tr.

(** A batch is scored when each label is the one line 78 derives from the
    row's score. *)
Definition scored (df : DataFrame) : Prop :=
  Forall (fun r => sentiment_label r = label_of (sentiment r)) df.

(** The thresholds of the label, read off a stored row. *)
Definition label_ok (r : Row) : Prop :=
  (sentiment_label r = "positive" <-> fle 0.05%float (sentiment r))
  /\ (sentiment_label r = "negative" <-> fle (sentiment r) (-0.05)%float)
  /\ (sentiment_label r = "neutral" <->
      ~ fle 0.05%float (sentiment r) /\ ~ fle (sentiment r) (-0.05)%float).

(** The rows the [for] loop builds from a stream, or the first exception
    met, as a function of the stream alone. *)
Fixpoint rows_of (env : Collaborators)
  (tweets : list (Exception + tweepy.Status)) (tweet_data : list Row)
  : Exception + list Row :=
  match tweets with
  | [] => inr tweet_data
  | inl e :: _ => inl e
  | inr tweet :: rest =>
      match polarity_compound env (tweepy.full_text tweet) with
      | inl e => inl e
      | inr compound =>
          rows_of env rest
            (tweet_data ++
             [ mkRow (tweepy.full_text tweet)
                     (tweepy.screen_name (tweepy.user tweet))
                     (tweepy.location (tweepy.user tweet))
                     (tweepy.created_at tweet)
                     (tweepy.retweet_count tweet)
                     (tweepy.favorite_count tweet)
                     compound (label_of compound) ])
      end
  end.

(** The stream a call with arguments [k] iterates at time [t]. *)
Definition stream_of (env : Collaborators) (t : Z) (k : Args)
  : list (Exception + tweepy.Status) :=
  let '(api, query, count, location) := k in
  items (search_tweets env t api query (geocode_of env location)) count.

(** The search request a call with arguments [k] sends. *)
Definition request_of (env : Collaborators) (k : Args) : Event :=
  let '(api, query, count, location) := k in
  api_search_tweets api query (geocode_of env location) count.

(** The frame a run of the function under the decorator returns at time
    [t], and the elements it displays. *)
Definition fetched (env : Collaborators) (t : Z) (k : Args) : DataFrame :=
  match rows_of env (stream_of env t k) [] with
  | inr rows => rows
  | inl _ => []
  end.


(** The world after a list of calls made at the current time. *)
Definition logged (w : World) (evs : list Event) : World :=
  mkWorld (now w) (cache w) (trace w ++ map (pair (now w)) evs).

(** The text of a percentage-of-total figure. *)
Definition pct_text (env : Collaborators) (part total : nat) : string :=
  format_1f env
    (PrimFloat.mul (PrimFloat.div (float_of_len part) (float_of_len total))
                   100%float) ++ "%".

(** The four metrics shown for a summary. *)
Definition metrics_of (env : Collaborators) (s : Summary) : list Event :=
  [ st_metric "Total Tweets" (total_tweets s) None;
    st_metric "Positive Sentiment" (positive s)
              (Some (pct_text env (positive s) (total_tweets s)));
    st_metric "Neutral Sentiment" (neutral s)
              (Some (pct_text env (neutral s) (total_tweets s)));
    st_metric "Negative Sentiment" (negative s)
              (Some (pct_text env (negative s) (total_tweets s))) ].

(** What lines 120-148 show for a batch. *)
Definition published (env : Collaborators) (df : DataFrame) : list Event :=
  match generate_summary env df with
  | Some s =>
      metrics_of env s ++
      [ st_subheader "Sentiment Distribution";
        st_plotly_chart "Sentiment Breakdown" (length df);
        st_subheader "Sentiment Over Time";
        st_plotly_chart "Sentiment by Time" (length df);
        st_subheader "Recent Tweets";
        st_dataframe (length df) ]
  | None => [ st_warning "No tweets found matching your criteria." ]
  end.

(** What a cycle shows before it fetches (lines 113-115). *)
Definition header (env : Collaborators) (cfg : Config)
  (location : option Location) : list Event :=
  st_subheader ("Real-time Analysis for: '" ++ search_query cfg ++ "'")
  :: match location with
     | Some loc =>
         [ st_caption ("Location: " ++ str_num env (latitude loc) ++ ", "
                       ++ str_num env (longitude loc) ++ " (Radius: "
                       ++ str_num env (radius loc) ++ "km)") ]
     | None => []
     end.

Definition is_sleep (e : Event) : bool :=
  match e with time_sleep _ => true | _ => false end.

(** All four credential fields are filled in (line 100). *)
Definition credentials_present (cfg : Config) : bool :=
  truthy (api_key cfg) && truthy (api_secret cfg)
  && truthy (access_token cfg) && truthy (access_secret cfg).

(** A stored row carries the scorer's compound score of its text and the
    label derived from it. *)
Definition stored_ok (env : Collaborators) (r : Row) : Prop :=
  polarity_compound env (text r) = inr (sentiment r)
  /\ sentiment_label r = label_of (sentiment r).

(** ** A concrete deployment, for evaluating the script *)

Module Demo.

Definition status (txt : string) : tweepy.Status :=
  tweepy.mkStatus txt (tweepy.mkUser "alice" "NYC") 1700000000 2 5.

(** Three texts scoring 0.6, 0.0 and -0.6. *)
Definition compound (txt : string) : Exception + float :=
  if (txt =? "great service")%string then inr 0.6%float
  else if (txt =? "awful service")%string then inr (-0.6)%float
  else if (txt =? "")%string
       then inl (mkException "AttributeError" "no text")
       else inr 0%float.

Definition mean (xs : list float) : float :=
  PrimFloat.div (fold_left PrimFloat.add xs 0%float)
                (PrimFloat.of_uint63 (Uint63.of_Z (Z.of_nat (length xs)))).

(** The service answers with three posts; for the query ["#down"] the
    second page fails. *)
Definition search (t : Z) (api : API) (q : string) (geocode : option string)
  : list (Exception + tweepy.Status) :=
  if (q =? "#down")%string
  then [inr (status "great service");
        inl (mkException "TweepyException" "503 Service Unavailable")]
  else [inr (status "great service"); inr (status "city hall");
        inr (status "awful service")].

Definition show_num (n : pynum) : string :=
  match n with
  | PyInt z => if z =? 10 then "10" else "n"
  | PyFloat _ => "x"
  end.

Definition env : Collaborators :=
  {| polarity_compound := compound;
     series_mean := mean;
     tweepy_auth := fun _ _ _ _ => None;
     search_tweets := search;
     str_num := show_num;
     strftime := fun _ _ => "now";
     format_1f := fun _ => "p" |}.

Definition cfg : Config :=
  {| api_key := "key"; api_secret := "secret";
     access_token := "token"; access_secret := "token-secret";
     search_query := "#test"; tweet_count := 3; refresh_rate := 10;
     use_location := false;
     latitude_input := PyFloat 40.7128%float;
     longitude_input := PyFloat (-74.0060)%float;
     radius_input := PyInt 50;
     clear_cache_clicked := false |}.

Definition api : API := mkAPI "key" "secret" "token" "token-secret".

Definition nyc : Location :=
  {| latitude := PyFloat 40.7128%float;
     longitude := PyFloat (-74.0060)%float;
     radius := PyInt 50 |}.

(** The same dashboard while the search service is failing. *)
Definition cfg_down : Config :=
  {| api_key := "key"; api_secret := "secret";
     access_token := "token"; access_secret := "token-secret";
     search_query := "#down"; tweet_count := 3; refresh_rate := 10;
     use_location := false;
     latitude_input := PyFloat 40.7128%float;
     longitude_input := PyFloat (-74.0060)%float;
     radius_input := PyInt 50;
     clear_cache_clicked := false |}.

(** The sidebar with the last credential field still empty. *)
Definition cfg_partial : Config :=
  {| api_key := "key"; api_secret := "secret";
     access_token := "token"; access_secret := "";
     search_query := "#test"; tweet_count := 3; refresh_rate := 10;
     use_location := false;
     latitude_input := PyFloat 40.7128%float;
     longitude_input := PyFloat (-74.0060)%float;
     radius_input := PyInt 50;
     clear_cache_clicked := false |}.

(** A fresh process: clock at 0, nothing cached, nothing called yet. *)
Definition w0 : World := mkWorld 0 [] [].

End Demo.

(** ** Further notions for reading executions *)

Definition is_error (e : Event) : bool :=
  match e with st_error _ => true | _ => false end.

Definition is_warning (e : Event) : bool :=
  match e with st_warning _ => true | _ => false end.

(** The [location] of lines 104-106, read off the widgets. *)
Definition location_of (cfg : Config) : option Location :=
  if use_location cfg
  then Some {| latitude := latitude_input cfg;
               longitude := longitude_input cfg;
               radius := radius_input cfg |}
  else None.

(** The exception every call of the decorated [fetch_tweets] ends in. *)
Definition unhashable_api : Exception :=
  UnhashableParamError "fetch_tweets" "api" "tweepy.api.API".

(** The first statement of the loop body (line 113), by which a run shows
    that it has entered the loop. *)
Definition loop_header (cfg : Config) : Event :=
  st_subheader ("Real-time Analysis for: '" ++ search_query cfg ++ "'").

(** Neither a search request, nor a sleep, nor a rerun request, nor a
    metric. *)
Definition quiet (e : Event) : bool :=
  negb (is_search e) && negb (is_sleep e) && negb (is_rerun e)
  && negb (is_metric e).

(** A row built from a status by lines 70-79. *)
Definition row_matches (env : Collaborators) (tweet : tweepy.Status) (r : Row)
  : Prop :=
  text r = tweepy.full_text tweet
  /\ user r = tweepy.screen_name (tweepy.user tweet)
  /\ location r = tweepy.location (tweepy.user tweet)
  /\ created_at r = tweepy.created_at tweet
  /\ retweets r = tweepy.retweet_count tweet
  /\ favorites r = tweepy.favorite_count tweet
  /\ polarity_compound env (tweepy.full_text tweet) = inr (sentiment r)
  /\ sentiment_label r = label_of (sentiment r).

(** ** Further deployments, for evaluating the script *)

Module Scenario.

(** A deployment whose API rejects the key ["revoked"]. *)
Definition auth (k s t ts : string) : option Exception :=
  if (k =? "revoked")%string
  then Some (mkException "TweepyException" "401 Unauthorized")
  else None.

Definition env : Collaborators :=
  {| polarity_compound := Demo.compound;
     series_mean := Demo.mean;
     tweepy_auth := auth;
     search_tweets := Demo.search;
     str_num := Demo.show_num;
     strftime := fun _ _ => "now";
     format_1f := fun _ => "p" |}.

Definition cfg_revoked : Config :=
  {| api_key := "revoked"; api_secret := "secret";
     access_token := "token"; access_secret := "token-secret";
     search_query := "#test"; tweet_count := 3; refresh_rate := 10;
     use_location := false;
     latitude_input := PyFloat 40.7128%float;
     longitude_input := PyFloat (-74.0060)%float;
     radius_input := PyInt 50;
     clear_cache_clicked := false |}.

(** A frame with a row whose label is none of the three. *)
Definition odd_frame : DataFrame :=
  [ mkRow "a" "u" "l" 0 0 0 0.6%float "positive";
    mkRow "b" "u" "l" 0 0 0 0%float "mixed" ].

End Scenario.

(** * Properties *)

(** ** Floats and labels *)

Lemma leb_neg_threshold_not_pos (s : float) :
  PrimFloat.leb s (-0.05)%float = true -> PrimFloat.leb 0.05%float s = false.
Proof.
  rewrite !leb_spec.
  let v := eval vm_compute in (Prim2SF 0.05%float) in
    change (Prim2SF 0.05%float) with v.
  let v := eval vm_compute in (Prim2SF (-0.05)%float) in
    change (Prim2SF (-0.05)%float) with v.
  destruct (Prim2SF s) as [b | b | | b m e]; try destruct b;
    cbv [SFleb SFcompare]; intro H; first [reflexivity | discriminate H].
Qed.

Lemma label_of_ok (r : Row) :
  sentiment_label r = label_of (sentiment r) -> label_ok r.
Proof.
  intro H. unfold label_ok, fle. rewrite H. unfold label_of.
  destruct (PrimFloat.leb 0.05%float (sentiment r)) eqn:Hpos.
  - assert (Hneg : PrimFloat.leb (sentiment r) (-0.05)%float = false).
    { destruct (PrimFloat.leb (sentiment r) (-0.05)%float) eqn:E; auto.
      apply leb_neg_threshold_not_pos in E. rewrite E in Hpos. discriminate. }
    rewrite Hneg. repeat split; intros; try discriminate; auto.
    destruct H0 as [H0 _]. now elim H0.
  - destruct (PrimFloat.leb (sentiment r) (-0.05)%float) eqn:Hneg;
      repeat split; intros; try discriminate; auto.
    destruct H0 as [_ H0]. now elim H0.
Qed.

Lemma label_of_three (s : float) :
  label_of s = "positive" \/ label_of s = "neutral" \/ label_of s = "negative".
Proof.
  unfold label_of.
  destruct (PrimFloat.leb 0.05%float s); auto.
  destruct (PrimFloat.leb s (-0.05)%float); auto.
Qed.

(** ** The decorator on hashable arguments *)

Lemma pynum_eqb_refl (a : pynum) : pynum_eqb a a = true.
Proof.
  destruct a as [z | f]; simpl.
  - apply Z.eqb_refl.
  - now apply Leibniz.eqb_spec.
Qed.

Lemma Location_eqb_refl (a : Location) : Location_eqb a a = true.
Proof. unfold Location_eqb. now rewrite !pynum_eqb_refl. Qed.

Lemma CacheKey_eqb_refl (params : list (string * Arg)) :
  unhashable params = None ->
  CacheKey_eqb (map snd params) (map snd params) = true.
Proof.
  induction params as [| [name a] params IH]; simpl; [reflexivity |].
  destruct a; try discriminate; intro H; rewrite (IH H), andb_true_r; simpl.
  - reflexivity.
  - apply String.eqb_refl.
  - apply Z.eqb_refl.
  - apply Location_eqb_refl.
Qed.

Lemma cache_lookup_store_same (params : list (string * Arg)) e c :
  unhashable params = None ->
  cache_lookup (map snd params) (cache_store (map snd params) e c) = Some e.
Proof.
  intro H. induction c as [| [k' e'] c IH]; simpl.
  - now rewrite CacheKey_eqb_refl.
  - destruct (CacheKey_eqb (map snd params) k') eqn:E; simpl.
    + now rewrite CacheKey_eqb_refl.
    + now rewrite E.
Qed.

(** When every parameter can be hashed, the decorator does cache: a call
    that finds no entry runs the function and stores its result, and a call
    with the same parameters less than [ttl] seconds later is served that
    result without the function being run. *)
Lemma st_cache_data_serves_stored (ttl : Z) (name : string)
  (params : list (string * Arg)) (func other : M DataFrame)
  (w1 w1' w2 : World) (v : DataFrame) :
  unhashable params = None ->
  cache_lookup (map snd params) (cache w1) = None ->
  func w1 = (Normal v, w1') ->
  cache w2 = cache (snd (st_cache_data ttl name params func w1)) ->
  now w2 < now w1' + ttl ->
  fst (st_cache_data ttl name params func w1) = Normal v
  /\ fst (st_cache_data ttl name params other w2) = Normal v.
Proof.
  intros Hh Hmiss Hf Hc Hlt. unfold st_cache_data in *.
  rewrite Hh in *. rewrite Hmiss, Hf in Hc. cbn [snd cache] in Hc.
  rewrite Hmiss, Hf. split; [reflexivity |].
  rewrite Hc, cache_lookup_store_same by exact Hh. cbn [stored_at].
  apply Z.ltb_lt in Hlt. rewrite Hlt.
  unfold bind. destruct (replay _ w2) as [[u | r] w3] eqn:Hr.
  - reflexivity.
  - exfalso. clear - Hr. revert w2 Hr.
    generalize (st_elements (skipn (length (trace w1)) (trace w1'))).
    induction l as [| e l IH]; intros w2 Hr; simpl in Hr.
    + discriminate.
    + unfold bind, emit in Hr. simpl in Hr. eapply IH; eauto.
Qed.

(** ** fetch_tweets *)

Section FetchProperties.

Variable env : Collaborators.

Lemma for_tweet_in_rows_of tweets acc w :
  for_tweet_in env tweets acc w =
  (match rows_of env tweets acc with
   | inl e => Raise (PyException e)
   | inr rows => Normal rows
   end, w).
Proof.
  revert acc. induction tweets as [| next rest IH]; intro acc; simpl.
  - reflexivity.
  - destruct next as [e | tweet]; unfold bind; simpl.
    + reflexivity.
    + destruct (polarity_compound env (tweepy.full_text tweet)) as [e | c];
        simpl.
      * reflexivity.
      * apply IH.
Qed.

Lemma fetch_tweets_try_eq k w :
  fetch_tweets_try env k w =
  (match rows_of env (stream_of env (now w) k) [] with
   | inl e => Raise (PyException e)
   | inr rows => Normal rows
   end,
   mkWorld (now w) (cache w) (trace w ++ [(now w, request_of env k)])).
Proof.
  destruct k as [[[api q] c] loc].
  unfold fetch_tweets_try, Cursor_items, get_now, emit, bind, ret. simpl.
  rewrite for_tweet_in_rows_of.
  destruct (rows_of env _ []); reflexivity.
Qed.

Lemma fetch_tweets_func_eq k w :
  fetch_tweets_func env k w =
  match rows_of env (stream_of env (now w) k) [] with
  | inr rows =>
      (Normal rows,
       mkWorld (now w) (cache w) (trace w ++ [(now w, request_of env k)]))
  | inl e =>
      (Normal [],
       mkWorld (now w) (cache w)
         ((trace w ++ [(now w, request_of env k)])
          ++ [(now w, st_error ("Error fetching tweets: " ++ exc_msg e))]))
  end.
Proof.
  unfold fetch_tweets_func, try_except. rewrite fetch_tweets_try_eq.
  destruct (rows_of env _ []); reflexivity.
Qed.

Lemma rows_of_stored tweets acc rows :
  Forall (stored_ok env) acc ->
  rows_of env tweets acc = inr rows ->
  Forall (stored_ok env) rows.
Proof.
  revert acc. induction tweets as [| next rest IH]; intros acc Hacc H; simpl in H.
  - now injection H as <-.
  - destruct next as [e | tweet]; [discriminate |].
    destruct (polarity_compound env (tweepy.full_text tweet)) as [e | c] eqn:Hc;
      [discriminate |].
    apply IH in H; auto.
    apply Forall_app. split; auto.
    constructor; [| constructor].
    split; simpl; auto.
Qed.

Lemma fetch_tweets_func_stored k w df w' :
  fetch_tweets_func env k w = (Normal df, w') ->
  Forall (stored_ok env) df.
Proof.
  rewrite fetch_tweets_func_eq.
  destruct (rows_of env _ []) as [e | rows] eqn:Hrows; intro H;
    injection H as <- _.
  - constructor.
  - eapply rows_of_stored; eauto.
Qed.

(** C1: every row stored by [fetch_tweets] carries the scorer's compound
    score [s] of its text, and its label is "positive" exactly when
    [s >= 0.05], "negative" exactly when [s <= -0.05] and "neutral"
    exactly when neither holds; at the boundaries, 0.05 is labelled
    positive and -0.05 negative. *)
Theorem C1_label_thresholds k w df w' :
  fetch_tweets_func env k w = (Normal df, w') ->
  Forall (fun r =>
            polarity_compound env (text r) = inr (sentiment r)
            /\ label_ok r) df
  /\ label_of 0.05%float = "positive"
  /\ label_of (-0.05)%float = "negative".
Proof.
  intro H. split; [| split; reflexivity].
  apply fetch_tweets_func_stored in H.
  eapply Forall_impl; [| exact H].
  intros r [Hs Hl]. split; auto. now apply label_of_ok.
Qed.

End FetchProperties.

Lemma C1_label_thresholds_witness :
  exists df w',
    fetch_tweets_func Demo.env (Demo.api, "#test", 3, None) Demo.w0
    = (Normal df, w')
    /\ map sentiment df = [0.6%float; 0%float; (-0.6)%float]
    /\ map sentiment_label df = ["positive"; "neutral"; "negative"]
    /\ Forall (fun r =>
                 polarity_compound Demo.env (text r) = inr (sentiment r)
                 /\ label_ok r) df.
Proof.
  eexists. eexists.
  split; [reflexivity |].
  split; [reflexivity |].
  split; [reflexivity |].
  exact (proj1 (C1_label_thresholds Demo.env (Demo.api, "#test", 3, None)
                  Demo.w0 _ _ eq_refl)).
Defined.

(** ** generate_summary and the published metrics *)

Section SummaryProperties.

Variable env : Collaborators.

Lemma stored_scored (df : DataFrame) :
  Forall (stored_ok env) df -> scored df.
Proof.
  intro H. eapply Forall_impl; [| exact H]. now intros r [_ Hl].
Qed.

(** The batches [fetch_tweets] builds are scored. *)
Lemma fetch_tweets_func_scored k w df w' :
  fetch_tweets_func env k w = (Normal df, w') -> scored df.
Proof.
  intro H. apply stored_scored. eapply fetch_tweets_func_stored; eauto.
Qed.

Lemma count_label_cons label r df :
  count_label label (r :: df) =
  ((if (sentiment_label r =? label)%string then 1 else 0)
   + count_label label df)%nat.
Proof.
  unfold count_label. simpl.
  destruct (sentiment_label r =? label)%string; reflexivity.
Qed.

Lemma count_label_partition (df : DataFrame) :
  scored df ->
  (count_label "positive" df + count_label "neutral" df
   + count_label "negative" df = length df)%nat.
Proof.
  induction 1 as [| r df Hr _ IH].
  - reflexivity.
  - rewrite !count_label_cons. simpl length.
    destruct (label_of_three (sentiment r)) as [E | [E | E]];
      rewrite Hr, E; simpl; lia.
Qed.

Lemma generate_summary_cons r df :
  generate_summary env (r :: df) =
  Some (mkSummary (length (r :: df))
          (count_label "positive" (r :: df))
          (count_label "neutral" (r :: df))
          (count_label "negative" (r :: df))
          (series_mean env (map sentiment (r :: df)))).
Proof. reflexivity. Qed.

(** C2: for a batch of scored posts, the summary's total is the number
    of records, each sub-count is the number of records carrying that
    label, and positive + neutral + negative = total_tweets; no summary is
    produced only for the batch with no records. *)
Theorem C2_summary_counts_sum (df : DataFrame) :
  scored df ->
  match generate_summary env df with
  | Some s =>
      total_tweets s = length df
      /\ positive s = count_label "positive" df
      /\ neutral s = count_label "neutral" df
      /\ negative s = count_label "negative" df
      /\ (positive s + neutral s + negative s = total_tweets s)%nat
  | None => df = []
  end.
Proof.
  intro H. destruct df as [| r df].
  - reflexivity.
  - rewrite generate_summary_cons. cbn [total_tweets positive neutral negative].
    repeat split. now apply count_label_partition.
Qed.

(** C3 (amended): applied to an empty batch, [generate_summary] returns
    [None], no Summary at all; it returns a Summary exactly for the
    non-empty batches, with a total of at least one and the mean of the
    batch's scores. *)
Theorem C3_empty_batch_yields_none (df : DataFrame) :
  (generate_summary env df = None <-> df = [])
  /\ (forall s, generate_summary env df = Some s ->
                (1 <= total_tweets s)%nat
                /\ avg_sentiment s = series_mean env (map sentiment df)).
Proof.
  destruct df as [| r df].
  - split; [split; reflexivity | discriminate].
  - rewrite generate_summary_cons. split.
    + split; discriminate.
    + intros s H. injection H as <-. simpl. split; [lia | reflexivity].
Qed.

Lemma segment_logged w evs :
  segment w (logged w evs) = map (pair (now w)) evs.
Proof.
  unfold segment, logged. simpl.
  rewrite skipn_app, skipn_all, Nat.sub_diag. reflexivity.
Qed.

Lemma logged_app w evs1 evs2 :
  logged (logged w evs1) evs2 = logged w (evs1 ++ evs2).
Proof.
  unfold logged. simpl. now rewrite map_app, app_assoc.
Qed.

Lemma emit_logged e w : emit e w = (Normal tt, logged w [e]).
Proof. reflexivity. Qed.

(** What [publish] shows, in terms of the summary of the batch. *)
Lemma publish_eq (df : DataFrame) (w : World) :
  publish env df w =
  (Normal tt, logged w (published env df)).
Proof.
  unfold published. destruct df as [| r df].
  - reflexivity.
  - rewrite generate_summary_cons.
    unfold publish, percentage, getitem, truediv, lift, bind, ret, emit, logged,
      metrics_of, pct_text.
    rewrite generate_summary_cons. simpl.
    rewrite <- !app_assoc. reflexivity.
Qed.

Lemma percentage_zero_total s key w :
  total_tweets s = 0%nat ->
  percentage env (Some s) key w =
  (Raise (PyException (mkException "ZeroDivisionError" "division by zero")), w).
Proof.
  intro H. unfold percentage, getitem, truediv, lift, bind, ret, raise.
  rewrite H. reflexivity.
Qed.

(** C8: the percentage figures are computed from the counts of the
    summary when the metrics are shown (the Summary stores counts and the
    mean only), and only for a non-empty batch: [publish] never raises,
    an empty batch shows the warning alone, and a non-empty one has a
    positive total under every division.  Without the guard the division
    would raise: [percentage] on a zero total is a ZeroDivisionError. *)
Theorem C8_percentages_guarded (df : DataFrame) (w : World) :
  exists w',
    publish env df w = (Normal tt, w')
    /\ (df = [] ->
        segment w w' =
        [(now w, st_warning "No tweets found matching your criteria.")])
    /\ (df <> [] ->
        exists s,
          generate_summary env df = Some s
          /\ (0 < total_tweets s)%nat
          /\ firstn 4 (segment w w') = map (pair (now w)) (metrics_of env s))
    /\ (count_events is_metric (segment w w') = if empty df then 0 else 4)%nat
    /\ (forall s key w1,
          total_tweets s = 0%nat ->
          fst (percentage env (Some s) key w1)
          = Raise (PyException
                     (mkException "ZeroDivisionError" "division by zero"))).
Proof.
  eexists. split; [apply publish_eq |].
  rewrite segment_logged. unfold published.
  assert (Hzero : forall s key w1,
             total_tweets s = 0%nat ->
             fst (percentage env (Some s) key w1)
             = Raise (PyException
                        (mkException "ZeroDivisionError" "division by zero"))).
  { intros s key w1 H. now rewrite percentage_zero_total. }
  destruct df as [| r df].
  - split; [| split; [| split]]; auto.
    intro H. now elim H.
  - rewrite generate_summary_cons.
    split; [| split; [| split]]; auto.
    + discriminate.
    + intros _. eexists. split; [reflexivity |].
      split; [simpl; lia | reflexivity].
Qed.

End SummaryProperties.

Lemma C2_summary_counts_sum_witness :
  generate_summary Demo.env (fetched Demo.env 0 (Demo.api, "#test", 3, None))
  = Some (mkSummary 3 1 1 1 0%float)
  /\ match generate_summary Demo.env
             (fetched Demo.env 0 (Demo.api, "#test", 3, None)) with
     | Some s =>
         total_tweets s = 3%nat
         /\ positive s = 1%nat /\ neutral s = 1%nat /\ negative s = 1%nat
         /\ (positive s + neutral s + negative s = total_tweets s)%nat
     | None => False
     end.
Proof.
  split; [reflexivity |].
  assert (H : scored (fetched Demo.env 0 (Demo.api, "#test", 3, None))).
  { repeat constructor. }
  pose proof (C2_summary_counts_sum Demo.env _ H) as P.
  change (generate_summary Demo.env
            (fetched Demo.env 0 (Demo.api, "#test", 3, None)))
    with (Some (mkSummary 3 1 1 1 0%float)) in *.
  exact P.
Defined.

Lemma C3_empty_batch_counterexample :
  generate_summary Demo.env [] = None
  /\ ~ (exists s, generate_summary Demo.env [] = Some s
                  /\ total_tweets s = 0%nat /\ positive s = 0%nat
                  /\ neutral s = 0%nat /\ negative s = 0%nat).
Proof.
  split; [reflexivity |].
  intros [s [H _]]. discriminate H.
Qed.

(** ** The call of fetch_tweets under its decorator *)

Section CacheProperties.

Variable env : Collaborators.


Lemma segment_app w n c evs :
  segment w (mkWorld n c (trace w ++ evs)) = evs.
Proof.
  unfold segment. simpl.
  rewrite skipn_app, skipn_all, Nat.sub_diag. reflexivity.
Qed.

Lemma segment_refl w : segment w w = [].
Proof. unfold segment. apply skipn_all. Qed.

(** The decorator hashes [api] first and has no rule for the client, so the
    call raises before the store is consulted and before the function
    runs. *)
Lemma fetch_tweets_raises api q c loc w :
  fetch_tweets env api q c loc w = (Raise (PyException unhashable_api), w).
Proof. reflexivity. Qed.

(** The function under the decorator always returns a frame: the rows of
    the [try] block when it completes, the empty frame after an error
    report when it raises. *)
Lemma fetch_tweets_func_total k w :
  exists df w',
    fetch_tweets_func env k w = (Normal df, w')
    /\ (forall e,
           fst (fetch_tweets_try env k w) = Raise (PyException e) ->
           df = []
           /\ In (now w, st_error ("Error fetching tweets: " ++ exc_msg e))
                 (segment w w'))
    /\ (forall rows,
           fst (fetch_tweets_try env k w) = Normal rows -> df = rows).
Proof.
  rewrite fetch_tweets_func_eq, fetch_tweets_try_eq. cbn [fst].
  destruct (rows_of env (stream_of env (now w) k) []) as [e | rows].
  - eexists. eexists. split; [reflexivity |].
    split; [| discriminate].
    intros e' H. injection H as <-. split; auto.
    rewrite <- app_assoc, segment_app. simpl. auto.
  - eexists. eexists. split; [reflexivity |].
    split; [discriminate |].
    intros rows' H. now injection H as <-.
Qed.

(** C5: at the call of line 118 the decorator never caches.  Two calls
    with the same query, count and geo-filter, however close in time, both
    raise [UnhashableParamError] on the [api] parameter: neither returns
    data, neither runs the function (no search is sent) and neither stores
    anything, so the second call is not served the data of the first and
    the underlying fetch is invoked not once but never. *)
Theorem C5_cached_call_raises_every_time (api : API) (q : string) (c : Z)
  (loc : option Location) (w1 w2 : World) :
  let r1 := fetch_tweets env api q c loc w1 in
  let r2 := fetch_tweets env api q c loc w2 in
  fst r1 = Raise (PyException unhashable_api)
  /\ fst r2 = Raise (PyException unhashable_api)
  /\ snd r1 = w1 /\ snd r2 = w2
  /\ searches (segment w1 (snd r1)) = 0%nat
  /\ searches (segment w2 (snd r2)) = 0%nat.
Proof.
  cbv zeta. rewrite !fetch_tweets_raises. cbn [fst snd].
  rewrite !segment_refl. repeat split.
Qed.

(** C6: at the call of line 118 no call keys an entry of the store.  Two
    calls whose geo-filters differ (or any two calls) both raise
    [UnhashableParamError] on the [api] parameter and leave the store as it
    was: neither keys an entry of its own, and the second does not observe
    the changed configuration. *)
Theorem C6_no_call_keys_an_entry (api1 api2 : API) (q : string) (c : Z)
  (loc1 loc2 : option Location) (w : World) :
  let r1 := fetch_tweets env api1 q c loc1 w in
  let r2 := fetch_tweets env api2 q c loc2 (snd r1) in
  fst r1 = Raise (PyException unhashable_api)
  /\ fst r2 = Raise (PyException unhashable_api)
  /\ cache (snd r1) = cache w
  /\ cache (snd r2) = cache w.
Proof.
  cbv zeta. rewrite !fetch_tweets_raises. cbn [fst snd]. repeat split.
Qed.

(** C9: the function under the decorator is total (it returns its rows,
    or the empty frame after an error report), but the call boundary of
    [fetch_tweets] is the decorator, and there every call raises
    [UnhashableParamError] on the [api] parameter, outside the [try]
    block. *)
Theorem C9_call_boundary_raises (api : API) (q : string) (c : Z)
  (loc : option Location) (w : World) :
  let k := (api, q, c, loc) in
  fetch_tweets env api q c loc w = (Raise (PyException unhashable_api), w)
  /\ exists df w',
       fetch_tweets_func env k w = (Normal df, w')
       /\ (forall e,
              fst (fetch_tweets_try env k w) = Raise (PyException e) ->
              df = []
              /\ In (now w, st_error ("Error fetching tweets: " ++ exc_msg e))
                    (segment w w'))
       /\ (forall rows,
              fst (fetch_tweets_try env k w) = Normal rows -> df = rows).
Proof.
  intro k. split; [apply fetch_tweets_raises | apply fetch_tweets_func_total].
Qed.

End CacheProperties.

(** ** The refresh loop *)

Section LoopProperties.

Variable env : Collaborators.

Lemma header_logged cfg location (k : M unit) w :
  (emit (st_subheader ("Real-time Analysis for: '" ++ search_query cfg ++ "'")) ;;
   match location with
   | Some loc =>
       emit (st_caption ("Location: " ++ str_num env (latitude loc) ++ ", "
                         ++ str_num env (longitude loc) ++ " (Radius: "
                         ++ str_num env (radius loc) ++ "km)"))
   | None => ret tt
   end ;; k) w
  = k (logged w (header env cfg location)).
Proof.
  unfold header, bind. rewrite emit_logged.
  destruct location as [loc |].
  - rewrite emit_logged, logged_app. reflexivity.
  - unfold ret. reflexivity.
Qed.

(** A pass through the loop body ends at the call of line 118. *)
Lemma loop_body_stops cfg api location w :
  loop_body env cfg api location w =
  (Raise (PyException unhashable_api), logged w (header env cfg location)).
Proof.
  unfold loop_body. rewrite header_logged. unfold bind.
  rewrite fetch_tweets_raises. reflexivity.
Qed.

Lemma while_true_raises more (body : M unit) w r w' :
  body w = (Raise r, w') -> while_true more body w = (Raise r, w').
Proof. intro H. destruct more; simpl; now rewrite H. Qed.

Lemma header_quiet (p : Event -> bool) cfg location t :
  (forall msg, p (st_subheader msg) = false) ->
  (forall msg, p (st_caption msg) = false) ->
  count_events p (map (pair t) (header env cfg location)) = 0%nat.
Proof.
  intros H1 H2. unfold header, count_events.
  destruct location; cbn [map filter snd]; rewrite ?H1, ?H2; reflexivity.
Qed.

(** C4: a cycle never gets to observe a failed fetch.  The call of line
    118 raises [UnhashableParamError] before the [try] block of
    [fetch_tweets] is entered, so every cycle ends there, having shown only
    its header: no error report, no warning about an empty batch, no sleep
    and no rerun request, and the exception leaves the loop.  This is so
    even when the function itself would have answered the failure with the
    empty DataFrame. *)
Theorem C4_cycle_stops_at_cached_call (more : nat) (cfg : Config) (api : API)
  (location : option Location) (w : World) :
  let k := (api, search_query cfg, tweet_count cfg, location) in
  let w' := logged w (header env cfg location) in
  while_true more (loop_body env cfg api location) w
  = (Raise (PyException unhashable_api), w')
  /\ now w' = now w
  /\ count_events is_error (segment w w') = 0%nat
  /\ count_events is_warning (segment w w') = 0%nat
  /\ count_events is_sleep (segment w w') = 0%nat
  /\ cycles (segment w w') = 0%nat
  /\ (forall e,
         fst (fetch_tweets_try env k w') = Raise (PyException e) ->
         fst (fetch_tweets_func env k w') = Normal []).
Proof.
  intros k w'.
  split; [apply while_true_raises, loop_body_stops |].
  split; [reflexivity |].
  unfold w', cycles. rewrite segment_logged.
  rewrite !header_quiet by reflexivity.
  split; [reflexivity |]. split; [reflexivity |].
  split; [reflexivity |]. split; [reflexivity |].
  intros e He.
  destruct (fetch_tweets_func_total env k (logged w (header env cfg location)))
    as (df & w2 & Hrun & Herr & _).
  rewrite Hrun. cbn [fst]. f_equal. exact (proj1 (Herr e He)).
Qed.

Lemma credentials_missing cfg :
  api_key cfg = "" \/ api_secret cfg = ""
  \/ access_token cfg = "" \/ access_secret cfg = "" ->
  credentials_present cfg = false.
Proof.
  unfold credentials_present.
  intros [H | [H | [H | H]]]; rewrite H; simpl;
    rewrite ?andb_false_r; reflexivity.
Qed.

Lemma authenticate_twitter_eq k s t ts w :
  authenticate_twitter env k s t ts w =
  match tweepy_auth env k s t ts with
  | None =>
      (Normal (Some (mkAPI k s t ts)), logged w [tweepy_OAuthHandler k s t ts])
  | Some e =>
      (Normal None,
       logged w [ tweepy_OAuthHandler k s t ts;
                  st_error ("Authentication failed: " ++ exc_msg e) ])
  end.
Proof.
  unfold authenticate_twitter, try_except, bind, emit, raise, ret, logged.
  destruct (tweepy_auth env k s t ts); simpl; rewrite <- ?app_assoc; reflexivity.
Qed.

Lemma main_without_credentials more cfg w :
  credentials_present cfg = false ->
  main env more cfg w =
  (Normal tt,
   logged w [st_info "Please enter your Twitter API credentials in the sidebar to begin."]).
Proof.
  unfold credentials_present, main. intros ->. reflexivity.
Qed.

Lemma script_without_credentials more cfg w :
  credentials_present cfg = false ->
  script env more cfg w =
  (Normal tt,
   mkWorld (now w)
     (if clear_cache_clicked cfg then [] else cache w)
     (trace w ++ map (pair (now w))
        ((if clear_cache_clicked cfg then [st_cache_data_clear] else [])
         ++ [st_info "Please enter your Twitter API credentials in the sidebar to begin."]))).
Proof.
  intro H. unfold script, bind.
  destruct (clear_cache_clicked cfg).
  - unfold cache_data_clear. rewrite (main_without_credentials more cfg _ H).
    unfold logged. cbn [trace now cache]. now rewrite <- app_assoc.
  - unfold ret. now rewrite (main_without_credentials more cfg _ H).
Qed.

Lemma main_with_client more cfg w :
  credentials_present cfg = true ->
  tweepy_auth env (api_key cfg) (api_secret cfg)
              (access_token cfg) (access_secret cfg) = None ->
  main env more cfg w =
  (Raise (PyException unhashable_api),
   logged w (tweepy_OAuthHandler (api_key cfg) (api_secret cfg)
                                 (access_token cfg) (access_secret cfg)
             :: header env cfg (location_of cfg))).
Proof.
  intros Hc Hauth. unfold main. unfold credentials_present in Hc. rewrite Hc.
  unfold bind. rewrite authenticate_twitter_eq, Hauth.
  change (if use_location cfg
          then Some {| latitude := latitude_input cfg;
                       longitude := longitude_input cfg;
                       radius := radius_input cfg |}
          else None) with (location_of cfg).
  rewrite (while_true_raises _ _ _ _ _ (loop_body_stops cfg _ _ _)).
  now rewrite logged_app.
Qed.

Lemma main_auth_failed more cfg w e :
  credentials_present cfg = true ->
  tweepy_auth env (api_key cfg) (api_secret cfg)
              (access_token cfg) (access_secret cfg) = Some e ->
  main env more cfg w =
  (Normal tt,
   logged w
     [ tweepy_OAuthHandler (api_key cfg) (api_secret cfg)
                           (access_token cfg) (access_secret cfg);
       st_error ("Authentication failed: " ++ exc_msg e);
       st_warning "Please enter valid Twitter API credentials to proceed." ]).
Proof.
  intros Hc Hauth. unfold main. unfold credentials_present in Hc. rewrite Hc.
  unfold bind. rewrite authenticate_twitter_eq, Hauth, emit_logged, logged_app.
  reflexivity.
Qed.

(** C10: if any of the four credential strings is empty, the main
    dashboard only shows the prompt for credentials, and however long the
    session goes on there is no authentication attempt, no search and no
    cycle; the loop is entered (its first statement, the header of line
    113, is reached) exactly when all four strings are non-empty and
    building the client did not raise. *)
Theorem C10_credentials_gate (more : nat) (cfg : Config) (w : World) :
  (api_key cfg = "" \/ api_secret cfg = ""
   \/ access_token cfg = "" \/ access_secret cfg = "" ->
   main env more cfg w =
   (Normal tt,
    logged w [st_info "Please enter your Twitter API credentials in the sidebar to begin."])
   /\ forall runs,
       let w' := session env runs more cfg w in
       count_events is_auth (segment w w') = 0%nat
       /\ searches (segment w w') = 0%nat
       /\ cycles (segment w w') = 0%nat)
  /\ (In (now w, loop_header cfg) (segment w (snd (main env more cfg w))) <->
      credentials_present cfg = true
      /\ tweepy_auth env (api_key cfg) (api_secret cfg)
                     (access_token cfg) (access_secret cfg) = None).
Proof.
  split.
  - intro Hempty. apply credentials_missing in Hempty.
    split; [now apply main_without_credentials |].
    intros [| runs] w'; subst w'.
    + simpl. rewrite segment_refl. auto.
    + simpl. rewrite (script_without_credentials more cfg w Hempty).
      rewrite segment_app.
      destruct (clear_cache_clicked cfg); auto.
  - destruct (credentials_present cfg) eqn:Hc.
    + destruct (tweepy_auth env (api_key cfg) (api_secret cfg)
                  (access_token cfg) (access_secret cfg)) as [e |] eqn:Hauth.
      * rewrite (main_auth_failed more cfg w e Hc Hauth). cbn [snd].
        rewrite segment_logged. split; [| intros [_ H]; discriminate H].
        cbn [map In]. unfold loop_header.
        intros [H | [H | [H | []]]]; discriminate H.
      * rewrite (main_with_client more cfg w Hc Hauth). cbn [snd].
        rewrite segment_logged. split; [auto |]. intros _.
        unfold header, loop_header. cbn [map In]. right. left. reflexivity.
    + rewrite (main_without_credentials more cfg w Hc). cbn [snd].
      rewrite segment_logged. split; [| intros [H _]; discriminate H].
      cbn [map In]. unfold loop_header. intros [H | []]. discriminate H.
Qed.

End LoopProperties.

Lemma C3_empty_batch_yields_none_witness :
  generate_summary Demo.env [] = None
  /\ (1 <= 3)%nat
  /\ 0%float = series_mean Demo.env [0.6%float; 0%float; (-0.6)%float].
Proof.
  split.
  - exact (proj2 (proj1 (C3_empty_batch_yields_none Demo.env [])) eq_refl).
  - exact (proj2 (C3_empty_batch_yields_none Demo.env
                    (fetched Demo.env 0 (Demo.api, "#test", 3, None)))
                 (mkSummary 3 1 1 1 0%float) eq_refl).
Defined.

Lemma C8_percentages_guarded_witness :
  exists w',
    publish Demo.env (fetched Demo.env 0 (Demo.api, "#test", 3, None)) Demo.w0
    = (Normal tt, w')
    /\ count_events is_metric (segment Demo.w0 w') = 4%nat.
Proof.
  destruct (C8_percentages_guarded Demo.env
              (fetched Demo.env 0 (Demo.api, "#test", 3, None)) Demo.w0)
    as (w' & Hrun & _ & _ & Hcount & _).
  exists w'. split; [exact Hrun | exact Hcount].
Defined.

Lemma C4_cycle_stops_at_cached_call_witness :
  while_true 0 (loop_body Demo.env Demo.cfg_down Demo.api None) Demo.w0
  = (Raise (PyException unhashable_api),
     mkWorld 0 [] [(0, st_subheader "Real-time Analysis for: '#down'")])
  /\ script Demo.env 0 Demo.cfg_down Demo.w0
     = (Raise (PyException unhashable_api),
        mkWorld 0 []
          [ (0, tweepy_OAuthHandler "key" "secret" "token" "token-secret");
            (0, st_subheader "Real-time Analysis for: '#down'") ])
  /\ session Demo.env 5 0 Demo.cfg_down Demo.w0
     = snd (script Demo.env 0 Demo.cfg_down Demo.w0)
  /\ fst (fetch_tweets_func Demo.env (Demo.api, "#down", 3, None) Demo.w0)
     = Normal [].
Proof.
  split.
  - exact (proj1 (C4_cycle_stops_at_cached_call Demo.env 0 Demo.cfg_down Demo.api
                    None Demo.w0)).
  - split; [reflexivity |]. split; reflexivity.
Defined.

Lemma C5_cached_call_raises_every_time_witness :
  let w1 := snd (script Demo.env 0 Demo.cfg Demo.w0) in
  let w2 := snd (script Demo.env 0 Demo.cfg w1) in
  fst (fetch_tweets Demo.env Demo.api "#test" 3 None Demo.w0)
  = Raise (PyException unhashable_api)
  /\ fst (fetch_tweets Demo.env Demo.api "#test" 3 None w1)
     = Raise (PyException unhashable_api)
  /\ searches (trace w2) = 0%nat
  /\ cache w2 = [].
Proof.
  cbv zeta.
  destruct (C5_cached_call_raises_every_time Demo.env Demo.api "#test" 3 None
              Demo.w0 (snd (script Demo.env 0 Demo.cfg Demo.w0)))
    as (H1 & H2 & _).
  split; [exact H1 |]. split; [exact H2 |]. split; reflexivity.
Defined.

Lemma C6_no_call_keys_an_entry_witness :
  let r1 := fetch_tweets Demo.env Demo.api "#test" 3 (Some Demo.nyc) Demo.w0 in
  let r2 := fetch_tweets Demo.env Demo.api "#test" 3 None (snd r1) in
  fst r1 = Raise (PyException unhashable_api)
  /\ fst r2 = Raise (PyException unhashable_api)
  /\ cache (snd r2) = [].
Proof.
  cbv zeta.
  destruct (C6_no_call_keys_an_entry Demo.env Demo.api Demo.api "#test" 3
              (Some Demo.nyc) None Demo.w0) as (H1 & H2 & _ & H4).
  split; [exact H1 |]. split; [exact H2 | exact H4].
Defined.

Lemma C9_call_boundary_raises_witness :
  fetch_tweets Demo.env Demo.api "#test" 3 None Demo.w0
  = (Raise (PyException unhashable_api), Demo.w0)
  /\ exc_class unhashable_api = "UnhashableParamError"
  /\ fst (fetch_tweets_func Demo.env (Demo.api, "#down", 3, None) Demo.w0)
     = Normal [].
Proof.
  split.
  - exact (proj1 (C9_call_boundary_raises Demo.env Demo.api "#test" 3 None
                    Demo.w0)).
  - split; reflexivity.
Defined.

Lemma C10_credentials_gate_witness :
  main Demo.env 0 Demo.cfg_partial Demo.w0
  = (Normal tt,
     logged Demo.w0
       [st_info "Please enter your Twitter API credentials in the sidebar to begin."])
  /\ searches (segment Demo.w0 (session Demo.env 5 0 Demo.cfg_partial Demo.w0))
     = 0%nat
  /\ In (0, loop_header Demo.cfg)
        (segment Demo.w0 (snd (main Demo.env 0 Demo.cfg Demo.w0))).
Proof.
  destruct (proj1 (C10_credentials_gate Demo.env 0 Demo.cfg_partial Demo.w0))
    as (Hmain & Hsession).
  - right. right. right. reflexivity.
  - split; [exact Hmain |].
    split; [exact (proj1 (proj2 (Hsession 5%nat))) |].
    apply (proj2 (proj2 (C10_credentials_gate Demo.env 0 Demo.cfg Demo.w0))).
    split; reflexivity.
Defined.

(** * Further properties of the script *)

(** ** authenticate_twitter *)

Section AuthProperties.

Variable env : Collaborators.

(** X1: [authenticate_twitter] never raises and leaves the clock and the store
    alone: it makes one attempt and no search, returns [None] exactly when
    building the handler or the client raised, and a client it returns
    carries exactly the four strings it was given. *)
Theorem authenticate_twitter_total (k s t ts : string) (w : World) :
  exists r w',
    authenticate_twitter env k s t ts w = (Normal r, w')
    /\ now w' = now w /\ cache w' = cache w
    /\ count_events is_auth (segment w w') = 1%nat
    /\ searches (segment w w') = 0%nat
    /\ (r = None <-> tweepy_auth env k s t ts <> None)
    /\ (forall a, r = Some a -> a = mkAPI k s t ts).
Proof.
  rewrite authenticate_twitter_eq.
  destruct (tweepy_auth env k s t ts) as [e0 |] eqn:E;
    (eexists; eexists; split; [reflexivity |]);
    rewrite segment_logged; cbn [now cache logged];
    (split; [reflexivity |]); (split; [reflexivity |]);
    (split; [reflexivity |]); (split; [reflexivity |]).
  - split; [split; [discriminate | reflexivity] | discriminate].
  - split; [split; [discriminate | intro H; now elim H] |].
    intros a H. now injection H as <-.
Qed.

(** X2: When all four credentials are filled in but building the client
    raises, the run reports the failure, shows the warning about valid
    credentials and ends normally: no search, no sleep, the clock and the
    store untouched, and no rerun, so the session goes no further than this
    run. *)
Theorem auth_failure_halts_refresh (more : nat) (cfg : Config) (w : World)
  (e : Exception) :
  credentials_present cfg = true ->
  tweepy_auth env (api_key cfg) (api_secret cfg)
              (access_token cfg) (access_secret cfg) = Some e ->
  exists w',
    main env more cfg w = (Normal tt, w')
    /\ map snd (segment w w') =
       [ tweepy_OAuthHandler (api_key cfg) (api_secret cfg)
                             (access_token cfg) (access_secret cfg);
         st_error ("Authentication failed: " ++ exc_msg e);
         st_warning "Please enter valid Twitter API credentials to proceed." ]
    /\ now w' = now w /\ cache w' = cache w
    /\ forall runs,
         session env (S runs) more cfg w = snd (script env more cfg w).
Proof.
  intros Hc Hauth.
  assert (Hmain : forall w0,
             main env more cfg w0 =
             (Normal tt,
              logged w0
                [ tweepy_OAuthHandler (api_key cfg) (api_secret cfg)
                                      (access_token cfg) (access_secret cfg);
                  st_error ("Authentication failed: " ++ exc_msg e);
                  st_warning "Please enter valid Twitter API credentials to proceed." ])).
  { intro w0. unfold main. unfold credentials_present in Hc. rewrite Hc.
    unfold bind. rewrite authenticate_twitter_eq, Hauth, emit_logged, logged_app.
    reflexivity. }
  eexists. split; [apply Hmain |].
  rewrite segment_logged, map_map. cbn [map snd now cache logged].
  split; [reflexivity |]. split; [reflexivity |]. split; [reflexivity |].
  intro runs. cbn [session]. unfold script, bind.
  destruct (clear_cache_clicked cfg).
  - unfold cache_data_clear. now rewrite Hmain.
  - unfold ret. now rewrite Hmain.
Qed.

End AuthProperties.

(** ** The rows of a batch *)

Section RowProperties.

Variable env : Collaborators.

Lemma rows_of_matches tweets acc rows :
  rows_of env tweets acc = inr rows ->
  exists statuses new,
    tweets = map inr statuses
    /\ rows = (acc ++ new)%list
    /\ Forall2 (row_matches env) statuses new.
Proof.
  revert acc. induction tweets as [| next rest IH]; intros acc H; simpl in H.
  - injection H as <-. exists [], []. rewrite app_nil_r. repeat split. constructor.
  - destruct next as [e | tweet]; [discriminate |].
    destruct (polarity_compound env (tweepy.full_text tweet)) as [e | c] eqn:Hc;
      [discriminate |].
    destruct (IH _ H) as (statuses & new & -> & -> & Hall).
    eexists (tweet :: statuses), (_ :: new).
    split; [reflexivity |]. split; [now rewrite <- app_assoc |].
    constructor; [| exact Hall].
    unfold row_matches. cbn. repeat split. exact Hc.
Qed.

(** X3: When the [try] block completes, the frame has one row per status the
    cursor yielded, in the order they were yielded, each row copying the
    text, author, author location, creation time and counters of its
    status and carrying the analyzer's compound score of that text with the
    label derived from it. *)
Theorem rows_follow_statuses (k : Args) (w : World) (rows : DataFrame) :
  fst (fetch_tweets_try env k w) = Normal rows ->
  exists statuses,
    stream_of env (now w) k = map inr statuses
    /\ Forall2 (row_matches env) statuses rows
    /\ length rows = length statuses.
Proof.
  rewrite fetch_tweets_try_eq. cbn [fst].
  destruct (rows_of env (stream_of env (now w) k) []) as [e | rows'] eqn:H;
    [discriminate |].
  intro Hr. injection Hr as ->.
  destruct (rows_of_matches _ _ _ H) as (statuses & new & Hs & Hrows & Hall).
  cbn in Hrows. subst new.
  exists statuses. split; [exact Hs |]. split; [exact Hall |].
  symmetry. eapply Forall2_length; eauto.
Qed.

Lemma rows_of_length tweets acc rows :
  rows_of env tweets acc = inr rows ->
  (length rows = length acc + length tweets)%nat.
Proof.
  revert acc. induction tweets as [| next rest IH]; intros acc H; simpl in H.
  - injection H as <-. simpl. lia.
  - destruct next as [e | tweet]; [discriminate |].
    destruct (polarity_compound env (tweepy.full_text tweet)); [discriminate |].
    apply IH in H. rewrite length_app in H. simpl in *. lia.
Qed.

(** X4: With a positive [count], a call of the function under the decorator
    never returns more than [count] rows, however many matches the service
    has, and it returns exactly [count] rows when the service has at least
    that many and nothing raises. *)
Theorem at_most_count_rows (api : API) (q : string) (c : Z)
  (loc : option Location) (w : World) (df : DataFrame) (w' : World) :
  0 < c ->
  fetch_tweets_func env (api, q, c, loc) w = (Normal df, w') ->
  (length df <= Z.to_nat c)%nat
  /\ (forall rows,
         fst (fetch_tweets_try env (api, q, c, loc) w) = Normal rows ->
         (Z.to_nat c
          <= length (search_tweets env (now w) api q (geocode_of env loc)))%nat ->
         length df = Z.to_nat c).
Proof.
  intros Hc H. rewrite fetch_tweets_func_eq in H.
  rewrite fetch_tweets_try_eq. cbn [fst].
  unfold stream_of, items in *.
  destruct (rows_of env _ []) as [e | rows] eqn:Hrows; injection H as <- _.
  - split; [simpl; lia | discriminate].
  - apply rows_of_length in Hrows. rewrite length_firstn in Hrows. simpl in Hrows.
    split; [lia |]. intros _ _ Hlen. lia.
Qed.

End RowProperties.

(** ** Summaries of arbitrary frames *)

Section SummaryBounds.

Variable env : Collaborators.

Lemma count_labels_le (df : DataFrame) :
  (count_label "positive" df + count_label "neutral" df
   + count_label "negative" df <= length df)%nat.
Proof.
  induction df as [| r df IH]; [reflexivity |].
  rewrite !count_label_cons. simpl length.
  destruct (sentiment_label r =? "positive")%string eqn:Ep.
  - apply String.eqb_eq in Ep. rewrite Ep. simpl. lia.
  - destruct (sentiment_label r =? "neutral")%string eqn:En.
    + apply String.eqb_eq in En. rewrite En. simpl. lia.
    + destruct (sentiment_label r =? "negative")%string; lia.
Qed.

Lemma count_labels_split (df : DataFrame) :
  (count_label "positive" df + count_label "neutral" df
   + count_label "negative" df
   + length (filter (fun r =>
                       negb (sentiment_label r =? "positive")%string
                       && negb (sentiment_label r =? "neutral")%string
                       && negb (sentiment_label r =? "negative")%string) df)
   = length df)%nat.
Proof.
  induction df as [| r df IH]; [reflexivity |].
  rewrite !count_label_cons. cbn [filter length].
  destruct (sentiment_label r =? "positive")%string eqn:Ep.
  - apply String.eqb_eq in Ep. rewrite Ep. cbn. lia.
  - destruct (sentiment_label r =? "neutral")%string eqn:En.
    + apply String.eqb_eq in En. rewrite En. cbn. lia.
    + destruct (sentiment_label r =? "negative")%string; cbn; lia.
Qed.

(** X5: Whatever labels a frame carries, a row is counted under at most one of
    the three labels: in every summary the three counts add up to at most
    [total_tweets], and they fall short of it by the number of rows whose
    label is none of the three. *)
Theorem summary_counts_bounded (df : DataFrame) (s : Summary) :
  generate_summary env df = Some s ->
  (positive s + neutral s + negative s <= total_tweets s)%nat
  /\ (positive s + neutral s + negative s
      + length (filter (fun r =>
                          negb (sentiment_label r =? "positive")%string
                          && negb (sentiment_label r =? "neutral")%string
                          && negb (sentiment_label r =? "negative")%string) df)
      = total_tweets s)%nat.
Proof.
  destruct df as [| r0 df0]; [discriminate |].
  rewrite generate_summary_cons. intro H. injection H as <-.
  cbn [positive neutral negative total_tweets].
  split; [apply count_labels_le | apply count_labels_split].
Qed.

End SummaryBounds.

(** ** Runs of the script *)

Section SessionProperties.

Variable env : Collaborators.



Lemma main_outcome more cfg w :
  exists r evs,
    main env more cfg w = (r, logged w evs)
    /\ r <> Raise RerunException
    /\ Forall (fun e => quiet e = true) evs.
Proof.
  destruct (credentials_present cfg) eqn:Hc.
  - destruct (tweepy_auth env (api_key cfg) (api_secret cfg)
                (access_token cfg) (access_secret cfg)) as [e |] eqn:Hauth.
    + rewrite (main_auth_failed env more cfg w e Hc Hauth).
      eexists. eexists. split; [reflexivity |]. split; [discriminate |].
      repeat constructor.
    + rewrite (main_with_client env more cfg w Hc Hauth).
      eexists. eexists. split; [reflexivity |]. split; [discriminate |].
      unfold header. destruct (location_of cfg); repeat constructor.
  - rewrite (main_without_credentials env more cfg w Hc).
    eexists. eexists. split; [reflexivity |]. split; [discriminate |].
    repeat constructor.
Qed.

Lemma script_outcome more cfg w :
  exists r evs,
    script env more cfg w =
    (r, mkWorld (now w) (if clear_cache_clicked cfg then [] else cache w)
                (trace w ++ map (pair (now w)) evs))
    /\ r <> Raise RerunException
    /\ Forall (fun e => quiet e = true) evs.
Proof.
  unfold script, bind. destruct (clear_cache_clicked cfg).
  - unfold cache_data_clear.
    match goal with
    | |- context [main env more cfg ?w0] =>
        destruct (main_outcome more cfg w0) as (r & evs & Hmain & Hr & Hq)
    end.
    rewrite Hmain. exists r, (st_cache_data_clear :: evs).
    split; [| split; [exact Hr | constructor; [reflexivity | exact Hq]]].
    unfold logged. cbn [now cache trace map]. now rewrite <- app_assoc.
  - unfold ret.
    destruct (main_outcome more cfg w) as (r & evs & Hmain & Hr & Hq).
    rewrite Hmain. exists r, evs. split; [reflexivity |]. split; assumption.
Qed.

Lemma count_quiet (p : Event -> bool) t evs :
  (forall e, quiet e = true -> p e = false) ->
  Forall (fun e => quiet e = true) evs ->
  count_events p (map (pair t) evs) = 0%nat.
Proof.
  intros Hp H. induction H as [| e evs He _ IH]; [reflexivity |].
  unfold count_events in *. cbn [map filter snd]. now rewrite (Hp e He).
Qed.

(** X16: As the script stands, the dashboard never gets a batch.  Whatever
    the widgets hold, a run never ends in the rerun request, so a session
    is its first run; that run sends no search request, shows no metric
    and does not sleep, the clock stays where it was, and the store is left
    as it was, or empty when Clear Cache was clicked. *)
Theorem dashboard_never_fetches (runs more : nat) (cfg : Config) (w : World) :
  let w' := session env (S runs) more cfg w in
  w' = snd (script env more cfg w)
  /\ fst (script env more cfg w) <> Raise RerunException
  /\ now w' = now w
  /\ cache w' = (if clear_cache_clicked cfg then [] else cache w)
  /\ searches (segment w w') = 0%nat
  /\ cycles (segment w w') = 0%nat
  /\ count_events is_sleep (segment w w') = 0%nat
  /\ count_events is_metric (segment w w') = 0%nat.
Proof.
  destruct (script_outcome more cfg w) as (r & evs & Hrun & Hr & Hq).
  cbn [session]. rewrite Hrun. cbn [fst snd].
  assert (Hw : (let (r0, w'0) :=
                  (r, mkWorld (now w)
                        (if clear_cache_clicked cfg then [] else cache w)
                        (trace w ++ map (pair (now w)) evs)) in
                match r0 with
                | Raise RerunException => session env runs more cfg w'0
                | _ => w'0
                end)
               = mkWorld (now w)
                   (if clear_cache_clicked cfg then [] else cache w)
                   (trace w ++ map (pair (now w)) evs)).
  { destruct r as [u | [e |]]; [reflexivity | reflexivity | now elim Hr]. }
  cbv zeta. rewrite Hw. cbn [now cache]. rewrite segment_app.
  unfold searches, cycles.
  split; [reflexivity |]. split; [exact Hr |]. split; [reflexivity |].
  split; [reflexivity |].
  split; [apply count_quiet; auto; intros e; unfold quiet;
          destruct (is_search e); [discriminate | reflexivity] |].
  split; [apply count_quiet; auto; intros e; unfold quiet;
          destruct (is_search e), (is_sleep e), (is_rerun e);
          try discriminate; reflexivity |].
  split; [apply count_quiet; auto; intros e; unfold quiet;
          destruct (is_search e), (is_sleep e); try discriminate; reflexivity |].
  apply count_quiet; auto. intros e. unfold quiet.
  destruct (is_search e), (is_sleep e), (is_rerun e), (is_metric e);
    try discriminate; reflexivity.
Qed.


End SessionProperties.

(** ** The further properties on concrete deployments *)

Lemma auth_failure_halts_refresh_witness :
  exists w',
    main Scenario.env 0 Scenario.cfg_revoked Demo.w0 = (Normal tt, w')
    /\ map snd (segment Demo.w0 w') =
       [ tweepy_OAuthHandler "revoked" "secret" "token" "token-secret";
         st_error "Authentication failed: 401 Unauthorized";
         st_warning "Please enter valid Twitter API credentials to proceed." ]
    /\ session Scenario.env 5 0 Scenario.cfg_revoked Demo.w0 = w'.
Proof.
  destruct (auth_failure_halts_refresh Scenario.env 0 Scenario.cfg_revoked Demo.w0
              (mkException "TweepyException" "401 Unauthorized")
              eq_refl eq_refl)
    as (w' & Hmain & Hseg & _ & _ & Hsession).
  exists w'. split; [exact Hmain |]. split; [exact Hseg |].
  rewrite (Hsession 4%nat). unfold script, bind, ret. cbn [Scenario.cfg_revoked
    clear_cache_clicked]. now rewrite Hmain.
Defined.

Lemma rows_follow_statuses_witness :
  exists statuses,
    stream_of Demo.env 0 (Demo.api, "#test", 2, None) = map inr statuses
    /\ map tweepy.full_text statuses = ["great service"; "city hall"]
    /\ Forall2 (row_matches Demo.env) statuses
         (fetched Demo.env 0 (Demo.api, "#test", 2, None)).
Proof.
  destruct (rows_follow_statuses Demo.env (Demo.api, "#test", 2, None) Demo.w0
              (fetched Demo.env 0 (Demo.api, "#test", 2, None)) eq_refl)
    as (statuses & Hs & Hall & _).
  exists statuses. split; [exact Hs |]. split; [| exact Hall].
  assert (H : map inr statuses
              = map (@inr Exception tweepy.Status)
                  [Demo.status "great service"; Demo.status "city hall"])
    by (rewrite <- Hs; reflexivity).
  assert (Hinj : forall l1 l2 : list tweepy.Status,
             map (@inr Exception tweepy.Status) l1 = map inr l2 -> l1 = l2).
  { induction l1 as [| a l1 IH]; destruct l2 as [| b l2]; simpl;
      intro E; try discriminate; auto.
    injection E as -> E. f_equal. now apply IH. }
  apply Hinj in H. now rewrite H.
Defined.

Lemma at_most_count_rows_witness :
  (length (fetched Demo.env 0 (Demo.api, "#test", 2%Z, None)) <= 2)%nat
  /\ length (fetched Demo.env 0 (Demo.api, "#test", 2, None)) = 2%nat.
Proof.
  destruct (at_most_count_rows Demo.env Demo.api "#test" 2 None Demo.w0
              (fetched Demo.env 0 (Demo.api, "#test", 2, None)) _
              ltac:(lia) eq_refl) as (Hle & Heq).
  split; [exact Hle |].
  apply (Heq (fetched Demo.env 0 (Demo.api, "#test", 2, None)) eq_refl).
  simpl. lia.
Defined.

Lemma summary_counts_bounded_witness :
  generate_summary Demo.env Scenario.odd_frame
  = Some (mkSummary 2 1 0 0 (series_mean Demo.env [0.6%float; 0%float]))
  /\ (1 + 0 + 0 <= 2)%nat.
Proof.
  split; [reflexivity |].
  exact (proj1 (summary_counts_bounded Demo.env Scenario.odd_frame _ eq_refl)).
Defined.
